(** * cnd: the manifest model (pkg/model/dev.go) and the state registry
      (pkg/storage/storage.go)

    A shallow embedding of the two Go packages, and the properties of the
    session registry and of the manifest loader proved over it.

    Go strings are [string]; Go maps are stdpp's [gmap]; a Go [error]
    result is an [option] of an error value ([None] is [nil]); the file
    system and the process environment are explicit arguments, the state
    file being threaded through the operations that write it. *)

From Stdlib Require Import String Ascii List Bool.
From stdpp Require Import base option strings gmap.
Import ListNotations.

Local Open Scope string_scope.

(** ** Go's [strings], [path] and [path/filepath] (Unix) *)

Module GoPath.

Definition slash : ascii := "/"%char.

(** [strings.HasPrefix(s, prefix)] *)
Definition HasPrefix (s prefix : string) : bool := String.prefix prefix s.

(** The slice [s[n:]]. *)
Fixpoint drop (n : nat) (s : string) : string :=
  match n, s with
  | O, _ => s
  | S _, EmptyString => EmptyString
  | S n', String _ s' => drop n' s'
  end.

(** [filepath.IsAbs] on Unix: the path starts with a slash. *)
Definition IsAbs (p : string) : bool := HasPrefix p "/".

(** The elements of a path: the pieces between its slashes. *)
Fixpoint elements (p : string) : list string :=
  match p with
  | EmptyString => [EmptyString]
  | String c p' =>
      if Ascii.eqb c slash then EmptyString :: elements p'
      else match elements p' with
           | e :: es => String c e :: es
           | [] => [String c EmptyString]
           end
  end.

(** [strings.Join(elem, "/")] *)
Fixpoint joinSlash (elem : list string) : string :=
  match elem with
  | [] => EmptyString
  | [e] => e
  | e :: es => e +:+ "/" +:+ joinSlash es
  end.

(** One pass of [path.Clean] over the elements, [out] being the
    elements written so far, last one first: empty and [.] elements are
    dropped; [..] removes the element before it when there is one to
    remove, is dropped at the root, and is kept at the front of a
    relative path. *)
Fixpoint cleanElements (rooted : bool) (out elems : list string) : list string :=
  match elems with
  | [] => out
  | e :: rest =>
      if String.eqb e "" || String.eqb e "." then cleanElements rooted out rest
      else if String.eqb e ".." then
        match out with
        | top :: out' =>
            if String.eqb top ".." then cleanElements rooted (".." :: out) rest
            else cleanElements rooted out' rest
        | [] =>
            if rooted then cleanElements rooted [] rest
            else cleanElements rooted [".."] rest
        end
      else cleanElements rooted (e :: out) rest
  end.

(** [path.Clean]: the shortest equivalent path; [.] for the empty one. *)
Definition Clean (p : string) : string :=
  let rooted := IsAbs p in
  let body := joinSlash (rev (cleanElements rooted [] (elements p))) in
  if rooted then "/" +:+ body
  else if String.eqb body "" then "." else body.


(** [path.Join] and, on Unix, [filepath.Join]: the elements from the
    first non-empty one on, joined with slashes and cleaned; the empty
    string when every element is empty. *)
Fixpoint Join (elem : list string) : string :=
  match elem with
  | [] => EmptyString
  | e :: es => if String.eqb e "" then Join es else Clean (joinSlash elem)
  end.

Fixpoint hasSlash (p : string) : bool :=
  match p with
  | EmptyString => false
  | String c p' => Ascii.eqb c slash || hasSlash p'
  end.

(** The first result of [path.Split]: the path up to and including its
    final slash. *)
Fixpoint splitDir (p : string) : string :=
  match p with
  | EmptyString => EmptyString
  | String c p' => if hasSlash p then String c (splitDir p') else EmptyString
  end.

(** [path.Dir] *)
Definition Dir (p : string) : string := Clean (splitDir p).

End GoPath.

(** A Go call that either returns or panics. *)
Inductive outcome (A : Type) : Type :=
| Returns (a : A)
| Panics.
Arguments Returns {A} a.
Arguments Panics {A}.

(** A Go result pair [(value, error)] of which exactly one is set. *)
Inductive result (E A : Type) : Type :=
| Ok (a : A)
| Fail (e : E).
Arguments Ok {E A} a.
Arguments Fail {E A} e.

(** ** pkg/model/dev.go *)

Module Model.
Import GoPath.

(** The errors of the package: those of [ioutil.ReadFile] and
    [yaml.Unmarshal], passed on unchanged by [ReadDev], and the three
    built by [validate]. *)
Inductive error : Type :=
| ErrReadFile
| ErrYaml
| ErrSourceMissing (source : string)
    (* "Source mount folder %s does not exists" *)
| ErrSourceNotDir
    (* "Source mount folder is not a directory" *)
| ErrNameEmpty.
    (* "Swap deployment name cannot be empty" *)

Record Deployment : Type := mkDeployment {
  Name : string;
  Container : string;
  Image : string;
  Command : list string;
  Args : list string
}.

Record Swap : Type := mkSwap { swapDeployment : Deployment }.

Record Mount : Type := mkMount { Source : string; Target : string }.

Record Dev : Type := mkDev {
  devSwap : Swap;
  devMount : Mount;
  Scripts : gmap string string
}.

(** The manifest as a YAML document: each key is present or not. *)
Record Manifest : Type := mkManifest {
  m_name : option string;
  m_container : option string;
  m_image : option string;
  m_command : option (list string);
  m_args : option (list string);
  m_source : option string;
  m_target : option string;
  m_scripts : option (gmap string string)
}.

(** The bytes of a file, as far as [yaml.Unmarshal] tells them apart. *)
Inductive bytes : Type :=
| Malformed
| Document (m : Manifest).

(** What a path leads to. [Forbidden] is an entry on which [stat] fails
    with an error that is not "does not exist" (permission denied). *)
Inductive Node : Type :=
| Directory
| Regular (b : bytes)
| Forbidden.

(** The process environment: [$HOME], the working directory ([None]
    when [os.Getwd] fails) and the file system, keyed by clean absolute
    paths (no symbolic links). *)
Record Env : Type := mkEnv {
  HOME : string;
  cwd : option string;
  fs : gmap string Node
}.

Inductive oserror : Type := ENOENT | EACCES.

(** [os.IsNotExist] *)
Definition IsNotExist (e : oserror) : bool :=
  match e with ENOENT => true | EACCES => false end.

Record FileInfo : Type := mkFileInfo { IsDir : bool }.

(** The entry a path names: an absolute path as it is, a relative one
    from the working directory. *)
Definition lookupPath (env : Env) (p : string) : option Node :=
  if String.eqb p "" then None
  else if IsAbs p then fs env !! Clean p
  else match cwd env with
       | Some wd => fs env !! Join [wd; p]
       | None => None
       end.

(** [os.Stat]: the file info is nil ([None]) whenever the error is not. *)
Definition os_Stat (env : Env) (p : string) : option FileInfo * option oserror :=
  match lookupPath env p with
  | None => (None, Some ENOENT)
  | Some Forbidden => (None, Some EACCES)
  | Some Directory => (Some (mkFileInfo true), None)
  | Some (Regular _) => (Some (mkFileInfo false), None)
  end.

(** [ioutil.ReadFile] *)
Definition ReadFile (env : Env) (p : string) : result error bytes :=
  match lookupPath env p with
  | Some (Regular b) => Ok b
  | _ => Fail ErrReadFile
  end.

(** [os.Getenv("HOME")] *)
Definition Getenv_HOME (env : Env) : string := HOME env.

(** [yaml.Unmarshal(b, &dev)]: a key of the document overwrites the
    field, an absent key leaves it as it was. *)
Definition Unmarshal (b : bytes) (dev : Dev) : result error Dev :=
  match b with
  | Malformed => Fail ErrYaml
  | Document m =>
      let d := swapDeployment (devSwap dev) in
      Ok {| devSwap := {| swapDeployment := {|
              Name := default (Name d) (m_name m);
              Container := default (Container d) (m_container m);
              Image := default (Image d) (m_image m);
              Command := default (Command d) (m_command m);
              Args := default (Args d) (m_args m) |} |};
            devMount := {|
              Source := default (Source (devMount dev)) (m_source m);
              Target := default (Target (devMount dev)) (m_target m) |};
            Scripts := default (Scripts dev) (m_scripts m) |}
  end.

Definition emptyDeployment : Deployment := mkDeployment "" "" "" [] [].

(** [NewDev] *)
Definition NewDev : Dev :=
  {| devSwap := {| swapDeployment := emptyDeployment |};
     devMount := {| Source := "."; Target := "/app" |};
     Scripts := ∅ |}.

Definition setSource (dev : Dev) (source : string) : Dev :=
  {| devSwap := devSwap dev;
     devMount := {| Source := source; Target := Target (devMount dev) |};
     Scripts := Scripts dev |}.

(** [(dev *Dev) validate] *)
Definition validate (env : Env) (dev : Dev) : outcome (option error) :=
  let '(file, err) := os_Stat env (Source (devMount dev)) in
  if match err with Some e => IsNotExist e | None => false end then
    Returns (Some (ErrSourceMissing (Source (devMount dev))))
  else
    match file with
    | None => Panics (* file.Mode() on a nil os.FileInfo *)
    | Some info =>
        if negb (IsDir info) then Returns (Some ErrSourceNotDir)
        else if String.eqb (Name (swapDeployment (devSwap dev))) "" then
          Returns (Some ErrNameEmpty)
        else Returns None
    end.

(** [loadDev] *)
Definition loadDev (env : Env) (b : bytes) : result error Dev :=
  let dev := {| devSwap := {| swapDeployment := emptyDeployment |};
                devMount := {| Source := "."; Target := "/src" |};
                Scripts := ∅ |} in
  match Unmarshal b dev with
  | Fail e => Fail e
  | Ok dev =>
      if HasPrefix (Source (devMount dev)) "~/" then
        let home := Getenv_HOME env in
        Ok (setSource dev (Join [home; drop 2 (Source (devMount dev))]))
      else Ok dev
  end.

(** [(dev *Dev) fixPath]; the error of [os.Getwd] is dropped, its
    string being empty then. *)
Definition fixPath (env : Env) (dev : Dev) (originalPath : string) : Dev :=
  let wd := default "" (cwd env) in
  if negb (IsAbs (Source (devMount dev))) then
    if IsAbs originalPath then
      setSource dev (Join [Dir originalPath; Source (devMount dev)])
    else
      setSource dev (Join [wd; Dir originalPath; Source (devMount dev)])
  else dev.

(** [ReadDev] *)
Definition ReadDev (env : Env) (devPath : string) : outcome (result error Dev) :=
  match ReadFile env devPath with
  | Fail e => Returns (Fail e)
  | Ok b =>
      match loadDev env b with
      | Fail e => Returns (Fail e)
      | Ok d =>
          match validate env d with
          | Panics => Panics
          | Returns (Some e) => Returns (Fail e)
          | Returns None => Returns (Ok (fixPath env d devPath))
          end
      end
  end.

(** Source-path resolution in the words of the specification: a source
    that is not absolute is joined against the directory of the
    manifest file, the working directory first when the path of the
    manifest file is relative. *)
Definition resolvePath_spec (wd manifestFilePath source : string) : string :=
  if IsAbs source then source
  else if IsAbs manifestFilePath then Join [Dir manifestFilePath; source]
  else Join [wd; Dir manifestFilePath; source].

(** The constants of the package that are exported. *)
Definition CNDLabel : string := "cnd.okteto.com/deployment".
Definition CNDDeploymentAnnotation : string := "cnd.okteto.com/manifest".
Definition CNDManifestAnnotationPrefix : string := "cnd.okteto.com/cnd-manifest-".
Definition CNDSyncContainer : string := "cnd-sync".

(** The identifiers derived from the container name. *)
Definition GetCNDManifestAnnotation (dev : Dev) : string :=
  "cnd.okteto.com/cnd-manifest-" +:+ Container (swapDeployment (devSwap dev)).
Definition GetCNDInitSyncContainer (dev : Dev) : string :=
  "cnd-init-" +:+ Container (swapDeployment (devSwap dev)).
Definition GetCNDSyncVolume (dev : Dev) : string :=
  "cnd-data-" +:+ Container (swapDeployment (devSwap dev)).
Definition GetCNDSyncMount (dev : Dev) : string :=
  "/var/cnd-sync/" +:+ Container (swapDeployment (devSwap dev)).

End Model.

(** ** pkg/storage/storage.go *)

Module Storage.
Import GoPath.

Definition version : string := "1.0".

(** The errors of the package. [ErrNotFound] is the error of [Get]:
    "there aren't any active cloud native development environments
    available for '%s'". *)
Inductive error : Type :=
| ErrAlreadyRunning   (* "up-already-running" *)
| ErrReading          (* "error reading the storage file: %s" *)
| ErrUnmarshalling    (* "error unmarshalling the storage file: %s" *)
| ErrWriting          (* "error writing storage: %s" *)
| ErrGetwd            (* the error of os.Getwd *)
| ErrNotFound (fullName : string).

(** [Service]: the information about one cnd service. *)
Record Service : Type := mkService {
  Folder : string;
  Syncthing : string
}.

#[global] Instance Service_eq_dec : EqDecision Service.
Proof. solve_decision. Defined.

(** [Storage]: the cli state. *)
Record Storage : Type := mkStorage {
  path : string;
  Version : string;
  Services : gmap string Service
}.

(** The state file as a YAML document. Every field of both structs is
    tagged [omitempty]: each key is present or not. *)
Record ServiceNode : Type := mkServiceNode {
  y_folder : option string;
  y_syncthing : option string
}.

Record StorageNode : Type := mkStorageNode {
  y_version : option string;
  y_services : option (gmap string ServiceNode)
}.

Inductive bytes : Type :=
| Malformed
| Document (d : StorageNode).

(** A file that exists: one that cannot be read, or its bytes. *)
Inductive File : Type :=
| Unreadable
| Readable (b : bytes).

(** The world of the package: the working directory ([None] when
    [os.Getwd] fails), the files by path, and the paths that cannot be
    opened for writing. *)
Record World : Type := mkWorld {
  cwd : option string;
  files : gmap string File;
  readonly : gset string
}.

(** [omitempty] on a string field. *)
Definition omitempty (s : string) : option string :=
  if String.eqb s "" then None else Some s.

Definition marshalService (svc : Service) : ServiceNode :=
  {| y_folder := omitempty (Folder svc);
     y_syncthing := omitempty (Syncthing svc) |}.

(** [yaml.Marshal(s)]: the unexported [path] has no key; an empty
    string and an empty map are left out. It has no error case on this
    struct. *)
Definition Marshal (s : Storage) : bytes :=
  Document
    {| y_version := omitempty (Version s);
       y_services :=
         if decide (Services s = ∅) then None
         else Some (marshalService <$> Services s) |}.

(** A map value is decoded into a fresh [Service]. *)
Definition unmarshalService (n : ServiceNode) : Service :=
  {| Folder := default "" (y_folder n);
     Syncthing := default "" (y_syncthing n) |}.

(** [yaml.Unmarshal(bytes, &s)]: a key that is present overwrites the
    field (the entries of a map are set in the map that is there), an
    absent one leaves it as it was. *)
Definition Unmarshal (b : bytes) (s : Storage) : result error Storage :=
  match b with
  | Malformed => Fail ErrUnmarshalling
  | Document d =>
      Ok {| path := path s;
            Version := default (Version s) (y_version d);
            Services :=
              match y_services d with
              | Some m => (unmarshalService <$> m) ∪ Services s
              | None => Services s
              end |}
  end.

(** [ioutil.WriteFile(p, b, 0644)]: fails, writing nothing, when the
    file cannot be opened for writing; the new bytes of a file that
    cannot be read cannot be read either. *)
Definition WriteFile (p : string) (b : bytes) (w : World) : option error * World :=
  if decide (p ∈ readonly w) then (Some ErrWriting, w)
  else (None,
        {| cwd := cwd w;
           files := <[p := match files w !! p with
                           | Some Unreadable => Unreadable
                           | _ => Readable b
                           end]> (files w);
           readonly := readonly w |}).

(** [getFullName]: [fmt.Sprintf("%s/%s/%s", ...)] *)
Definition getFullName (namespace : string) (dev : Model.Dev) : string :=
  namespace +:+ "/" +:+ Model.Name (Model.swapDeployment (Model.devSwap dev))
            +:+ "/" +:+ Model.Container (Model.swapDeployment (Model.devSwap dev)).

(** [fixPath] *)
Definition fixPath (w : World) (originalPath : string) : result error string :=
  if IsAbs originalPath then Ok originalPath
  else match cwd w with
       | None => Fail ErrGetwd
       | Some folder => Ok (Join [folder; originalPath])
       end.

(** [newService] *)
Definition newService (w : World) (folder host : string) : result error Service :=
  match fixPath w folder with
  | Fail e => Fail e
  | Ok absFolder => Ok {| Folder := absFolder; Syncthing := host |}
  end.

Section Registry.

(** [stPath], set once by [init] to [path.Join(model.GetCNDHome(),
    ".state")]; [GetCNDHome] is not part of these two files. *)
Variable stPath : string.

(** [load] *)
Definition load (w : World) : result error Storage :=
  let s := {| path := stPath; Version := version; Services := ∅ |} in
  match files w !! stPath with
  | None => Ok s
  | Some Unreadable => Fail ErrReading
  | Some (Readable b) => Unmarshal b s
  end.

(** [(s *Storage) save] *)
Definition save (s : Storage) (w : World) : option error * World :=
  WriteFile (path s) (Marshal s) w.

Definition setServices (s : Storage) (m : gmap string Service) : Storage :=
  {| path := path s; Version := Version s; Services := m |}.

(** [Insert] *)
Definition Insert (namespace : string) (dev : Model.Dev) (host : string)
    (w : World) : option error * World :=
  match load w with
  | Fail e => (Some e, w)
  | Ok s =>
      let fullName := getFullName namespace dev in
      match newService w (Model.Source (Model.devMount dev)) host with
      | Fail e => (Some e, w)
      | Ok svc =>
          match Services s !! fullName with
          | Some svc2 =>
              if bool_decide (svc2 = svc) then (None, w)
              else if negb (String.eqb (Syncthing svc2) "") then
                (Some ErrAlreadyRunning, w)
              else save (setServices s (<[fullName := svc]> (Services s))) w
          | None => save (setServices s (<[fullName := svc]> (Services s))) w
          end
      end
  end.

(** [Get] *)
Definition Get (namespace : string) (dev : Model.Dev) (w : World)
    : result error Service :=
  match load w with
  | Fail e => Fail e
  | Ok s =>
      let fullName := getFullName namespace dev in
      match Services s !! fullName with
      | None => Fail (ErrNotFound fullName)
      | Some svc => Ok svc
      end
  end.

(** [Stop] *)
Definition Stop (namespace : string) (dev : Model.Dev) (w : World)
    : option error * World :=
  match load w with
  | Fail e => (Some e, w)
  | Ok s =>
      let fullName := getFullName namespace dev in
      match Services s !! fullName with
      | Some svc =>
          let svc := {| Folder := Folder svc; Syncthing := "" |} in
          save (setServices s (<[fullName := svc]> (Services s))) w
      | None => (None, w)
      end
  end.

(** [Delete] *)
Definition Delete (namespace : string) (dev : Model.Dev) (w : World)
    : option error * World :=
  match load w with
  | Fail e => (Some e, w)
  | Ok s =>
      let fullName := getFullName namespace dev in
      save (setServices s (delete fullName (Services s))) w
  end.

(** [All]: nil, which reads as the empty map, when [load] fails. *)
Definition All (w : World) : gmap string Service :=
  match load w with
  | Fail _ => ∅
  | Ok s => Services s
  end.

(** The world once the document of [s] is in the state file. *)
Definition persisted (s : Storage) (w : World) : World :=
  {| cwd := cwd w;
     files := <[stPath := Readable (Marshal s)]> (files w);
     readonly := readonly w |}.

(** The conflict of [insert] in the words of the specification: a
    record at the key whose handle is not empty and is not the
    requested one. *)
Definition handle_conflict (s : Storage) (key host : string) : Prop :=
  ∃ svc2, Services s !! key = Some svc2
          ∧ Syncthing svc2 ≠ "" ∧ Syncthing svc2 ≠ host.

(** The conflict as [Insert] decides it: an active record at the key
    that is not the requested record. *)
Definition record_conflict (s : Storage) (key : string) (svc : Service) : Prop :=
  ∃ svc2, Services s !! key = Some svc2
          ∧ Syncthing svc2 ≠ "" ∧ svc2 ≠ svc.

End Registry.

End Storage.

(** ** Sample data: the scenario of the specification *)

Module Sample.
Import Storage.

Definition stateFile : string := "/home/u/.cnd/.state".

(** A manifest's descriptor: deployment [web], container [app]. *)
Definition target (name container source : string) : Model.Dev :=
  {| Model.devSwap :=
       {| Model.swapDeployment := Model.mkDeployment name container "" [] [] |};
     Model.devMount := {| Model.Source := source; Model.Target := "/app" |};
     Model.Scripts := ∅ |}.

Definition web : Model.Dev := target "web" "app" "/src/web".

(** No state file yet. *)
Definition fresh : World :=
  {| cwd := Some "/tmp"; files := ∅; readonly := ∅ |}.

(** The registry with one record for [default/web/app]. *)
Definition registry (folder host : string) : Storage :=
  {| path := stateFile; Version := version;
     Services := {[ "default/web/app" := mkService folder host ]} |}.

(** The world whose state file holds that registry. *)
Definition recorded (folder host : string) : World :=
  persisted stateFile (registry folder host) fresh.

(** The worlds of the end-to-end scenario: the session started, then
    stopped, then deleted. *)
Definition started : World :=
  snd (Insert stateFile "default" web "host:1234" fresh).
Definition stopped : World := snd (Stop stateFile "default" web started).
Definition deleted : World := snd (Delete stateFile "default" web stopped).

(** A manifest for deployment [web], container [app], with the given
    mount source. *)
Definition cndYml (source : string) : Model.Manifest :=
  {| Model.m_name := Some "web"; Model.m_container := Some "app";
     Model.m_image := None; Model.m_command := None; Model.m_args := None;
     Model.m_source := Some source; Model.m_target := None;
     Model.m_scripts := None |}.

(** A state file that is not YAML. *)
Definition garbled : World :=
  {| cwd := Some "/tmp";
     files := {[ stateFile := Readable Malformed ]};
     readonly := ∅ |}.

(** A state file written with another version, holding one stopped
    session. *)
Definition legacy : World :=
  persisted stateFile
    {| path := stateFile; Version := "0.9";
       Services := {[ "default/web/app" := mkService "/src/web" "" ]} |}
    fresh.

(** No state file, and no working directory to be had. *)
Definition adrift : World :=
  {| cwd := None; files := ∅; readonly := ∅ |}.

Definition relative : Model.Dev := target "web" "app" "src/web".

(** The manifest [/repo/cnd.yml] mounts [./a], a directory beside it, and
    the tool runs in [/repo]. *)
Definition inplace : Model.Env :=
  {| Model.HOME := "/home/u"; Model.cwd := Some "/repo";
     Model.fs := {[ "/repo" := Model.Directory;
                    "/repo/cnd.yml" := Model.Regular (Model.Document (cndYml "./a"));
                    "/repo/a" := Model.Directory ]} |}.

(** A manifest without any key. *)
Definition noKeys : Model.Manifest :=
  {| Model.m_name := None; Model.m_container := None;
     Model.m_image := None; Model.m_command := None; Model.m_args := None;
     Model.m_source := None; Model.m_target := None;
     Model.m_scripts := None |}.

(** The manifest [/repo/cnd.yml] mounts [./a]; the tool runs in [/tmp],
    where there is a directory [a]; there is no [/repo/a]. *)
Definition elsewhere : Model.Env :=
  {| Model.HOME := "/home/u"; Model.cwd := Some "/tmp";
     Model.fs := {[ "/repo" := Model.Directory;
                    "/repo/cnd.yml" := Model.Regular (Model.Document (cndYml "./a"));
                    "/tmp" := Model.Directory;
                    "/tmp/a" := Model.Directory ]} |}.

(** The same manifest and working directory; now [/repo/a] is a
    directory and there is no [/tmp/a]. *)
Definition beside : Model.Env :=
  {| Model.HOME := "/home/u"; Model.cwd := Some "/tmp";
     Model.fs := {[ "/repo" := Model.Directory;
                    "/repo/cnd.yml" := Model.Regular (Model.Document (cndYml "./a"));
                    "/repo/a" := Model.Directory;
                    "/tmp" := Model.Directory ]} |}.

(** The manifest [/repo/cnd.yml] mounts [/srv/private/app], below a
    directory that the user may not search. *)
Definition locked : Model.Env :=
  {| Model.HOME := "/home/u"; Model.cwd := Some "/repo";
     Model.fs := {[ "/repo" := Model.Directory;
                    "/repo/cnd.yml" :=
                      Model.Regular (Model.Document (cndYml "/srv/private/app"));
                    "/srv/private/app" := Model.Forbidden ]} |}.

End Sample.

(** ** Go's path functions on the paths of the examples *)

Example Clean_dot : GoPath.Clean "/repo/./a" = "/repo/a".
Proof. reflexivity. Qed.
Example Clean_empty : GoPath.Clean "" = ".".
Proof. reflexivity. Qed.
Example Clean_slashes : GoPath.Clean "//abc//" = "/abc".
Proof. reflexivity. Qed.
Example Clean_dotdot : GoPath.Clean "abc/def/../ghi/../jkl" = "abc/jkl".
Proof. reflexivity. Qed.
Example Clean_dotdot_root : GoPath.Clean "/abc/def/../../.." = "/".
Proof. reflexivity. Qed.
Example Clean_dotdot_front :
  GoPath.Clean "abc/def/../../../ghi/jkl/../../../mno" = "../../mno".
Proof. reflexivity. Qed.
Example Dir_manifest : GoPath.Dir "/repo/cnd.yml" = "/repo".
Proof. reflexivity. Qed.
Example Dir_bare : GoPath.Dir "cnd.yml" = ".".
Proof. reflexivity. Qed.
Example Dir_root : GoPath.Dir "/cnd.yml" = "/".
Proof. reflexivity. Qed.
Example Dir_slashes : GoPath.Dir "abc////def" = "abc".
Proof. reflexivity. Qed.
Example Join_home : GoPath.Join ["/home/u"; "x"] = "/home/u/x".
Proof. reflexivity. Qed.
Example Join_empty_first : GoPath.Join [""; "x"] = "x".
Proof. reflexivity. Qed.
Example Join_empty_all : GoPath.Join [""; ""] = "".
Proof. reflexivity. Qed.
Example Join_three : GoPath.Join ["/tmp"; "."; "./a"] = "/tmp/a".
Proof. reflexivity. Qed.
Example Join_trailing : GoPath.Join ["a/"; ""] = "a".
Proof. reflexivity. Qed.

(** ** Absolute paths *)

Section PathFacts.
Import GoPath.

Lemma IsAbs_cons (c : ascii) (p : string) :
  IsAbs (String c p) = if ascii_dec slash c then true else false.
Proof.
  unfold IsAbs, HasPrefix.
  change (String.prefix "/" (String c p))
    with (if ascii_dec slash c then String.prefix "" p else false).
  by destruct (ascii_dec slash c), p.
Qed.

Lemma IsAbs_String (c : ascii) (p q : string) :
  IsAbs (String c p) = IsAbs (String c q).
Proof. by rewrite !IsAbs_cons. Qed.

Lemma IsAbs_Clean (p : string) : IsAbs p = true → IsAbs (Clean p) = true.
Proof.
  intros H. unfold Clean. rewrite H.
  change ("/" +:+ ?b) with (String slash b). rewrite IsAbs_cons.
  by destruct (ascii_dec slash slash).
Qed.


End PathFacts.

(** ** The state registry *)

Section RegistryFacts.
Import GoPath Storage.

Variable stPath : string.

Lemma default_omitempty (d s : string) :
  default d (omitempty s) = if String.eqb s "" then d else s.
Proof. unfold omitempty. by destruct (String.eqb s ""). Qed.

Lemma unmarshal_marshalService (svc : Service) :
  unmarshalService (marshalService svc) = svc.
Proof.
  destruct svc as [f h]. unfold unmarshalService, marshalService. simpl.
  rewrite !default_omitempty.
  f_equal; match goal with |- context [String.eqb ?x ""] =>
    destruct (String.eqb_spec x "") end; congruence.
Qed.

Lemma unmarshal_marshal_services (m : gmap string Service) :
  unmarshalService <$> (marshalService <$> m) = m.
Proof.
  rewrite <- map_fmap_compose. rewrite <- (map_fmap_id m) at 2.
  apply map_fmap_ext. intros k svc _. apply unmarshal_marshalService.
Qed.

(** What [yaml.Unmarshal] makes of the document of [s], decoded into
    the registry that [load] prepares. *)
Lemma unmarshal_marshal (s : Storage) :
  Unmarshal (Marshal s) {| path := stPath; Version := version; Services := ∅ |}
  = Ok {| path := stPath;
          Version := if String.eqb (Version s) "" then version else Version s;
          Services := Services s |}.
Proof.
  unfold Unmarshal, Marshal. simpl. rewrite default_omitempty.
  do 2 f_equal. destruct (decide (Services s = ∅)) as [->|_]; [done|].
  by rewrite unmarshal_marshal_services, (right_id_L ∅ (∪)).
Qed.

Lemma load_path (w : World) (s : Storage) :
  load stPath w = Ok s → path s = stPath.
Proof.
  unfold load.
  destruct (files w !! stPath) as [[|[|d]]|]; simpl; intros E;
    try discriminate E; by injection E as <-.
Qed.

Lemma load_readable (w : World) (s : Storage) :
  load stPath w = Ok s → files w !! stPath ≠ Some Unreadable.
Proof. unfold load. intros H E. rewrite E in H. discriminate. Qed.

(** A registry of the state path, written where writing is allowed and
    reading is, is what the next [load] decodes. *)
Lemma save_then_load (s : Storage) (w : World) :
  path s = stPath →
  stPath ∉ readonly w →
  files w !! stPath ≠ Some Unreadable →
  save s w = (None, persisted stPath s w)
  ∧ load stPath (persisted stPath s w)
    = Ok {| path := stPath;
            Version := if String.eqb (Version s) "" then version else Version s;
            Services := Services s |}.
Proof.
  intros Hp Hw Hr. split.
  - unfold save, WriteFile, persisted. rewrite Hp, decide_False by done.
    destruct (files w !! stPath) as [[|b]|]; done.
  - unfold load, persisted. simpl. rewrite lookup_insert_eq.
    apply unmarshal_marshal.
Qed.

(** After a successful [load], saving the registry with another
    session map. *)
Lemma save_loaded (w : World) (s : Storage) (m : gmap string Service) :
  load stPath w = Ok s →
  stPath ∉ readonly w →
  save (setServices s m) w = (None, persisted stPath (setServices s m) w)
  ∧ ∃ s', load stPath (persisted stPath (setServices s m) w) = Ok s'
          ∧ Services s' = m.
Proof.
  intros Hl Hw.
  destruct (save_then_load (setServices s m) w) as [Hs Hl'];
    [exact (load_path w s Hl) | done | exact (load_readable w s Hl) |].
  split; [done|]. eexists. split; [exact Hl'|done].
Qed.

Lemma save_readonly (s : Storage) (w : World) :
  path s ∈ readonly w → save s w = (Some ErrWriting, w).
Proof. intros H. unfold save, WriteFile. by rewrite decide_True. Qed.

End RegistryFacts.

Section RegistryOperations.
Import GoPath Storage.

Variable stPath : string.

Lemma record_conflict_lookup (s : Storage) (key : string) (svc svc2 : Service) :
  Services s !! key = Some svc2 →
  record_conflict s key svc ↔ Syncthing svc2 ≠ "" ∧ svc2 ≠ svc.
Proof.
  intros E. unfold record_conflict. split.
  - intros (x & Hx & H). rewrite E in Hx. by injection Hx as ->.
  - intros H. by exists svc2.
Qed.

Lemma record_conflict_absent (s : Storage) (key : string) (svc : Service) :
  Services s !! key = None → ¬ record_conflict s key svc.
Proof. intros E (x & Hx & _). rewrite E in Hx. discriminate. Qed.

Lemma save_not_running (s : Storage) (w : World) :
  fst (save s w) ≠ Some ErrAlreadyRunning.
Proof. unfold save, WriteFile. by destruct (decide (path s ∈ readonly w)). Qed.

Lemma newService_ok (w : World) (source host folder : string) :
  fixPath w source = Ok folder →
  newService w source host = Ok (mkService folder host).
Proof. intros H. unfold newService. by rewrite H. Qed.


(** [Insert] when the registry loads and the folder resolves: the three
    ways out of the function. *)
Lemma insert_cases (n : string) (dev : Model.Dev) (h : string) (w : World)
    (s : Storage) (folder : string) :
  load stPath w = Ok s →
  fixPath w (Model.Source (Model.devMount dev)) = Ok folder →
  Insert stPath n dev h w =
    match Services s !! getFullName n dev with
    | Some svc2 =>
        if bool_decide (svc2 = mkService folder h) then (None, w)
        else if negb (String.eqb (Syncthing svc2) "") then (Some ErrAlreadyRunning, w)
        else save (setServices s (<[getFullName n dev := mkService folder h]> (Services s))) w
    | None =>
        save (setServices s (<[getFullName n dev := mkService folder h]> (Services s))) w
    end.
Proof.
  intros Hl Hf. unfold Insert. by rewrite Hl, (newService_ok _ _ _ _ Hf).
Qed.


(** C1 (amended). When the registry loads and the source folder
    resolves, [Insert] fails with [ErrAlreadyRunning] exactly when the
    key has a record whose handle is not empty and which is not the
    requested record, be it by its handle or by its folder; the world
    is then left as it was. In every other case, the state file being
    writable, [Insert] succeeds and the registry read back holds the
    requested record at the key and every other entry as before. *)
Theorem insert_conflict_iff (n : string) (dev : Model.Dev) (h : string)
    (w : World) (s : Storage) (folder : string) :
  load stPath w = Ok s →
  fixPath w (Model.Source (Model.devMount dev)) = Ok folder →
  (fst (Insert stPath n dev h w) = Some ErrAlreadyRunning
     ↔ record_conflict s (getFullName n dev) (mkService folder h))
  ∧ (record_conflict s (getFullName n dev) (mkService folder h) →
       Insert stPath n dev h w = (Some ErrAlreadyRunning, w))
  ∧ (¬ record_conflict s (getFullName n dev) (mkService folder h) →
     stPath ∉ readonly w →
       ∃ w' s', Insert stPath n dev h w = (None, w')
                ∧ load stPath w' = Ok s'
                ∧ Services s' = <[getFullName n dev := mkService folder h]> (Services s)).
Proof.
  intros Hl Hf. rewrite (insert_cases n dev h w s folder Hl Hf).
  set (key := getFullName n dev). set (svc := mkService folder h).
  pose proof (save_not_running (setServices s (<[key := svc]> (Services s))) w) as Hnr.
  assert (stPath ∉ readonly w →
          ∃ w' s', save (setServices s (<[key := svc]> (Services s))) w = (None, w')
                   ∧ load stPath w' = Ok s'
                   ∧ Services s' = <[key := svc]> (Services s)) as Hsave.
  { intros Hw.
    destruct (save_loaded stPath w s (<[key := svc]> (Services s)) Hl Hw)
      as (Es & s' & Hl' & Hs').
    by exists (persisted stPath (setServices s (<[key := svc]> (Services s))) w), s'. }
  destruct (Services s !! key) as [svc2|] eqn:Ek.
  - rewrite (record_conflict_lookup s key svc svc2 Ek).
    destruct (bool_decide_reflect (svc2 = svc)) as [Heq|Hne].
    + repeat split; simpl; try done; try tauto.
      intros _ _. exists w, s. repeat split; [done|].
      symmetry. apply insert_id. by rewrite Ek, Heq.
    + destruct (String.eqb_spec (Syncthing svc2) "") as [Hs|Hs]; simpl.
      * repeat split; tauto.
      * repeat split; tauto.
  - pose proof (record_conflict_absent s key svc Ek) as Hno.
    repeat split; tauto.
Qed.



(** C4. [Stop] on a key that has a record empties the handle of that
    record and keeps its folder: the state file then holds the document
    of the registry so changed, and the registry read back differs from
    the one before at that key only. On a key without a record [Stop]
    returns nil and the world, the state file in it, is as it was. *)
Theorem stop_clears_handle (n : string) (dev : Model.Dev) (w : World) (s : Storage) :
  load stPath w = Ok s →
  stPath ∉ readonly w →
  (∀ svc, Services s !! getFullName n dev = Some svc →
     ∃ s', let stopped := <[getFullName n dev :=
                             {| Folder := Folder svc; Syncthing := "" |}]> (Services s) in
           Stop stPath n dev w = (None, persisted stPath (setServices s stopped) w)
           ∧ load stPath (persisted stPath (setServices s stopped) w) = Ok s'
           ∧ Services s' !! getFullName n dev
             = Some {| Folder := Folder svc; Syncthing := "" |}
           ∧ (∀ k, k ≠ getFullName n dev → Services s' !! k = Services s !! k))
  ∧ (Services s !! getFullName n dev = None → Stop stPath n dev w = (None, w)).
Proof.
  intros Hl Hw. unfold Stop. rewrite Hl. split.
  - intros svc Ek. rewrite Ek.
    destruct (save_loaded stPath w s
                (<[getFullName n dev := mkService (Folder svc) ""]> (Services s)) Hl Hw)
      as (Es & s' & Hl' & Hs').
    exists s'. simpl. repeat split; try done.
    + rewrite Hs'. apply lookup_insert_eq.
    + intros k Hk. rewrite Hs'. by apply lookup_insert_ne.
  - by intros ->.
Qed.

(** C5. [Delete] removes the entry of the key whether or not there is
    one, returns nil and writes the state file; the registry read back
    is the one before without the key, and the [Get] that follows fails
    with the not-found error. *)
Theorem delete_then_get (n : string) (dev : Model.Dev) (w : World) (s : Storage) :
  load stPath w = Ok s →
  stPath ∉ readonly w →
  ∃ s', let w' := persisted stPath
                    (setServices s (delete (getFullName n dev) (Services s))) w in
        Delete stPath n dev w = (None, w')
        ∧ load stPath w' = Ok s'
        ∧ Services s' = delete (getFullName n dev) (Services s)
        ∧ Get stPath n dev w' = Fail (ErrNotFound (getFullName n dev)).
Proof.
  intros Hl Hw. unfold Delete. rewrite Hl.
  destruct (save_loaded stPath w s (delete (getFullName n dev) (Services s)) Hl Hw)
    as (Es & s' & Hl' & Hs').
  exists s'. simpl. repeat split; try done.
  unfold Get. rewrite Hl', Hs'. by rewrite lookup_delete_eq.
Qed.

(** C7 (amended). A registry of the state path, saved where the state
    file can be written and read: [load] returns exactly its session
    map, and exactly its version too when the version is not empty, so
    that [load] then returns the registry itself. (An empty version is
    left out of the document and read back as the default.) *)
Theorem save_load_roundtrip (r : Storage) (w : World) :
  path r = stPath →
  stPath ∉ readonly w →
  files w !! stPath ≠ Some Unreadable →
  ∃ w' r', save r w = (None, w')
           ∧ load stPath w' = Ok r'
           ∧ Services r' = Services r
           ∧ (Version r ≠ "" → Version r' = Version r ∧ r' = r).
Proof.
  intros Hp Hw Hr. destruct (save_then_load stPath r w Hp Hw Hr) as [Es Hl].
  eexists _, _. split; [exact Es|]. split; [exact Hl|]. simpl. split; [done|].
  intros Hv. destruct (String.eqb_spec (Version r) "") as [|_]; [done|].
  split; [done|]. destruct r; simpl in *. by rewrite Hp.
Qed.

End RegistryOperations.

(** ** The state registry on the sample data *)

Section RegistrySamples.
Import GoPath Storage Sample.

Lemma recorded_loads (folder host : string) :
  load stateFile (recorded folder host) = Ok (registry folder host).
Proof.
  unfold recorded.
  destruct (save_then_load stateFile (registry folder host) fresh) as [_ ->];
    [done | apply not_elem_of_empty | simpl; by rewrite lookup_empty |].
  reflexivity.
Qed.

Lemma fresh_writable : stateFile ∉ readonly fresh.
Proof. apply not_elem_of_empty. Qed.

Lemma recorded_writable (folder host : string) :
  stateFile ∉ readonly (recorded folder host).
Proof. apply not_elem_of_empty. Qed.

(** C1 as stated fails: the record at the key is active with the very
    handle that is requested, its folder is another one, and [Insert]
    answers [ErrAlreadyRunning] although no handle differs. *)
Lemma insert_same_handle_other_folder :
  load stateFile (recorded "/src/old" "host:1234") = Ok (registry "/src/old" "host:1234")
  ∧ Insert stateFile "default" web "host:1234" (recorded "/src/old" "host:1234")
    = (Some ErrAlreadyRunning, recorded "/src/old" "host:1234")
  ∧ ¬ handle_conflict (registry "/src/old" "host:1234")
        (getFullName "default" web) "host:1234".
Proof.
  split; [apply recorded_loads|]. split; [vm_compute; reflexivity|].
  intros (svc2 & Hk & _ & Hh). apply Hh.
  change (getFullName "default" web) with "default/web/app" in Hk.
  unfold registry in Hk. simpl in Hk. rewrite lookup_singleton_eq in Hk.
  by injection Hk as <-.
Qed.

(** C1 (amended) at work: a second handle on an active session. *)
Lemma insert_conflict_iff_witness :
  load stateFile (recorded "/src/web" "host:1234") = Ok (registry "/src/web" "host:1234")
  ∧ fixPath (recorded "/src/web" "host:1234") "/src/web" = Ok "/src/web"
  ∧ Insert stateFile "default" web "host:5555" (recorded "/src/web" "host:1234")
    = (Some ErrAlreadyRunning, recorded "/src/web" "host:1234").
Proof.
  pose proof (recorded_loads "/src/web" "host:1234") as Hl.
  assert (fixPath (recorded "/src/web" "host:1234") "/src/web" = Ok "/src/web")
    as Hf by reflexivity.
  split; [exact Hl|]. split; [exact Hf|].
  destruct (insert_conflict_iff stateFile "default" web "host:5555"
              (recorded "/src/web" "host:1234") (registry "/src/web" "host:1234")
              "/src/web" Hl Hf) as (_ & Hc & _).
  apply Hc. exists (mkService "/src/web" "host:1234").
  split; [vm_compute; reflexivity|]. split; discriminate.
Defined.



(** C4 at work: stopping the session of the scenario. *)
Lemma stop_clears_handle_witness :
  load stateFile (recorded "/src/web" "host:1234") = Ok (registry "/src/web" "host:1234")
  ∧ (stateFile ∉ readonly (recorded "/src/web" "host:1234"))
  ∧ (∃ w', Stop stateFile "default" web (recorded "/src/web" "host:1234") = (None, w')
           ∧ Get stateFile "default" web w'
             = Ok {| Folder := "/src/web"; Syncthing := "" |}).
Proof.
  pose proof (recorded_loads "/src/web" "host:1234") as Hl.
  pose proof (recorded_writable "/src/web" "host:1234") as Hw.
  split; [exact Hl|]. split; [exact Hw|].
  destruct (stop_clears_handle stateFile "default" web _ _ Hl Hw) as [Hs _].
  destruct (Hs (mkService "/src/web" "host:1234")) as (s' & E & Hl' & Hk & _);
    [vm_compute; reflexivity|].
  eexists. split; [exact E|]. unfold Get. by rewrite Hl', Hk.
Defined.

(** C5 at work: deleting the session, and deleting it once more. *)
Lemma delete_then_get_witness :
  load stateFile (recorded "/src/web" "host:1234") = Ok (registry "/src/web" "host:1234")
  ∧ (stateFile ∉ readonly (recorded "/src/web" "host:1234"))
  ∧ (∃ w', Delete stateFile "default" web (recorded "/src/web" "host:1234") = (None, w')
           ∧ Get stateFile "default" web w' = Fail (ErrNotFound "default/web/app")
           ∧ fst (Delete stateFile "default" web w') = None).
Proof.
  pose proof (recorded_loads "/src/web" "host:1234") as Hl.
  pose proof (recorded_writable "/src/web" "host:1234") as Hw.
  split; [exact Hl|]. split; [exact Hw|].
  destruct (delete_then_get stateFile "default" web _ _ Hl Hw)
    as (s' & E & Hl' & _ & Hg).
  eexists. split; [exact E|]. split; [exact Hg|].
  destruct (delete_then_get stateFile "default" web _ s' Hl') as (s2 & E2 & _);
    [apply not_elem_of_empty|].
  by rewrite E2.
Defined.

(** C7 as stated fails: a registry whose version is the empty string is
    saved without a version key, and [load] gives it the default
    version. *)
Lemma save_load_empty_version :
  ∃ w' r', save {| path := stateFile; Version := ""; Services := ∅ |} fresh
             = (None, w')
           ∧ load stateFile w' = Ok r'
           ∧ Version r' = "1.0"
           ∧ Version r' ≠ Version {| path := stateFile; Version := ""; Services := ∅ |}.
Proof.
  eexists _, _. split; [reflexivity|]. split; [vm_compute; reflexivity|].
  split; [reflexivity|discriminate].
Qed.

(** C7 (amended) at work: the registry of the scenario. *)
Lemma save_load_roundtrip_witness :
  path (registry "/src/web" "host:1234") = stateFile
  ∧ (stateFile ∉ readonly fresh)
  ∧ files fresh !! stateFile ≠ Some Unreadable
  ∧ (∃ w', save (registry "/src/web" "host:1234") fresh = (None, w')
           ∧ load stateFile w' = Ok (registry "/src/web" "host:1234")).
Proof.
  assert (files fresh !! stateFile ≠ Some Unreadable) as Hr
    by (simpl; rewrite lookup_empty; discriminate).
  split; [reflexivity|]. split; [exact fresh_writable|]. split; [exact Hr|].
  destruct (save_load_roundtrip stateFile (registry "/src/web" "host:1234") fresh
              eq_refl fresh_writable Hr) as (w' & r' & Es & Hl & _ & Hv).
  exists w'. split; [exact Es|].
  destruct Hv as [_ ->]; [discriminate|]. exact Hl.
Defined.

(** The end-to-end scenario of the specification. *)
Example scenario :
  fst (Insert stateFile "default" web "host:1234" fresh) = None
  ∧ Get stateFile "default" web started
    = Ok {| Folder := "/src/web"; Syncthing := "host:1234" |}
  ∧ Insert stateFile "default" web "host:1234" started = (None, started)
  ∧ Insert stateFile "default" web "host:5555" started
    = (Some ErrAlreadyRunning, started)
  ∧ fst (Stop stateFile "default" web started) = None
  ∧ Get stateFile "default" web stopped
    = Ok {| Folder := "/src/web"; Syncthing := "" |}
  ∧ fst (Delete stateFile "default" web stopped) = None
  ∧ Get stateFile "default" web deleted = Fail (ErrNotFound "default/web/app").
Proof. repeat split; vm_compute; reflexivity. Qed.

End RegistrySamples.

(** ** The session key *)

Section SessionKey.
Import GoPath Storage.

Lemma append_nil (x : string) : "" +:+ x = x.
Proof. reflexivity. Qed.

Lemma append_cons (c : ascii) (a x : string) :
  String c a +:+ x = String c (a +:+ x).
Proof. reflexivity. Qed.

(** Push the appends in [E] below the characters in front of them. *)
Ltac push_append E :=
  repeat (rewrite append_cons in E || rewrite append_nil in E).

Lemma append_inj_l (a x y : string) : a +:+ x = a +:+ y → x = y.
Proof.
  induction a as [|c a IH]; intros E; push_append E; [done|].
  injection E as E. by apply IH.
Qed.

(** A string without a slash, a slash, and the rest: the first slash
    tells where the first part ends. *)
Lemma append_slash_inj (a a' b b' : string) :
  hasSlash a = false → hasSlash a' = false →
  a +:+ "/" +:+ b = a' +:+ "/" +:+ b' → a = a' ∧ b = b'.
Proof.
  revert a'. induction a as [|c a IH]; intros [|c' a'] Ha Ha' E;
    push_append E; simpl in Ha, Ha'.
  - by injection E as ->.
  - injection E as <- _. by rewrite Ascii.eqb_refl in Ha'.
  - injection E as -> _. by rewrite Ascii.eqb_refl in Ha.
  - injection E as -> E.
    apply orb_false_elim in Ha as [_ Ha]. apply orb_false_elim in Ha' as [_ Ha'].
    destruct (IH a' Ha Ha' E) as [-> ->]. done.
Qed.

Lemma getFullName_inj (n1 n2 : string) (d1 d2 : Model.Dev) :
  hasSlash n1 = false → hasSlash n2 = false →
  hasSlash (Model.Name (Model.swapDeployment (Model.devSwap d1))) = false →
  hasSlash (Model.Name (Model.swapDeployment (Model.devSwap d2))) = false →
  getFullName n1 d1 = getFullName n2 d2 →
  n1 = n2
  ∧ Model.Name (Model.swapDeployment (Model.devSwap d1))
    = Model.Name (Model.swapDeployment (Model.devSwap d2))
  ∧ Model.Container (Model.swapDeployment (Model.devSwap d1))
    = Model.Container (Model.swapDeployment (Model.devSwap d2)).
Proof.
  intros H1 H2 H3 H4 E. unfold getFullName in E.
  apply append_slash_inj in E as [-> E]; [|done..].
  apply append_slash_inj in E as [-> ->]; done.
Qed.

(** C6 as stated fails: a slash in a component moves the boundary
    between namespace and name, and two pairs that differ in both have
    the same key. *)
Lemma getFullName_collision :
  getFullName "a/b" (Sample.target "c" "d" "/src") = "a/b/c/d"
  ∧ getFullName "a" (Sample.target "b/c" "d" "/src") = "a/b/c/d"
  ∧ "a/b" ≠ "a"
  ∧ Model.Name (Model.swapDeployment (Model.devSwap (Sample.target "c" "d" "/src")))
    ≠ Model.Name (Model.swapDeployment (Model.devSwap (Sample.target "b/c" "d" "/src"))).
Proof. repeat split; (reflexivity || discriminate). Qed.

(** C6 (amended). Two pairs of a namespace and a descriptor that differ
    in the namespace, in the deployment name or in the container have
    distinct keys when no namespace and no deployment name holds a
    slash, and also when they differ in the container only. *)
Theorem getFullName_distinct (n1 n2 : string) (d1 d2 : Model.Dev) :
  n1 ≠ n2
  ∨ Model.Name (Model.swapDeployment (Model.devSwap d1))
    ≠ Model.Name (Model.swapDeployment (Model.devSwap d2))
  ∨ Model.Container (Model.swapDeployment (Model.devSwap d1))
    ≠ Model.Container (Model.swapDeployment (Model.devSwap d2)) →
  (hasSlash n1 = false ∧ hasSlash n2 = false
   ∧ hasSlash (Model.Name (Model.swapDeployment (Model.devSwap d1))) = false
   ∧ hasSlash (Model.Name (Model.swapDeployment (Model.devSwap d2))) = false)
  ∨ (n1 = n2
     ∧ Model.Name (Model.swapDeployment (Model.devSwap d1))
       = Model.Name (Model.swapDeployment (Model.devSwap d2))) →
  getFullName n1 d1 ≠ getFullName n2 d2.
Proof.
  intros Hd [(H1 & H2 & H3 & H4)|[Hn Hm]] E.
  - destruct (getFullName_inj n1 n2 d1 d2 H1 H2 H3 H4 E) as (? & ? & ?).
    tauto.
  - unfold getFullName in E. rewrite Hn, Hm in E.
    apply append_inj_l in E. push_append E. injection E as E.
    apply append_inj_l in E. push_append E. injection E as E. tauto.
Qed.

(** C6 (amended) at work: the containers [app] and [sidecar] of one
    deployment. *)
Lemma getFullName_distinct_witness :
  getFullName "default" (Sample.target "web" "app" "/src/web")
  ≠ getFullName "default" (Sample.target "web" "sidecar" "/src/web").
Proof.
  apply getFullName_distinct.
  - right. right. discriminate.
  - left. repeat split; reflexivity.
Defined.

End SessionKey.

(** ** The manifest model *)

Section ManifestFacts.
Import GoPath Model.

(** What [validate] answers, by what [os.Stat] finds at the source as
    the descriptor holds it when [validate] is called. *)
Lemma validate_on_source (env : Env) (dev : Dev) :
  validate env dev =
    match lookupPath env (Source (devMount dev)) with
    | None => Returns (Some (ErrSourceMissing (Source (devMount dev))))
    | Some Forbidden => Panics
    | Some (Regular _) => Returns (Some ErrSourceNotDir)
    | Some Directory =>
        if String.eqb (Name (swapDeployment (devSwap dev))) ""
        then Returns (Some ErrNameEmpty) else Returns None
    end.
Proof.
  unfold validate, os_Stat.
  by destruct (lookupPath env (Source (devMount dev))) as [[| |]|].
Qed.

Lemma loadDev_document (env : Env) (m : Manifest) :
  ∃ d, loadDev env (Document m) = Ok d.
Proof.
  unfold loadDev. simpl.
  match goal with |- context [if ?b then _ else _] => destruct b end; eauto.
Qed.

Lemma fixPath_source (env : Env) (dev : Dev) (devPath wd : string) :
  cwd env = Some wd →
  Source (devMount (fixPath env dev devPath))
  = resolvePath_spec wd devPath (Source (devMount dev)).
Proof.
  intros Hwd. unfold fixPath, resolvePath_spec. rewrite Hwd. simpl.
  destruct (IsAbs (Source (devMount dev))); simpl; [done|].
  by destruct (IsAbs devPath).
Qed.

(** Whatever [ReadDev] returns is the descriptor of [loadDev], found
    valid as loaded and then fixed for the path of the manifest. *)
Lemma ReadDev_returns (env : Env) (devPath : string) (d' : Dev) :
  ReadDev env devPath = Returns (Ok d') →
  ∃ b d, ReadFile env devPath = Ok b
         ∧ loadDev env b = Ok d
         ∧ validate env d = Returns None
         ∧ d' = fixPath env d devPath.
Proof.
  unfold ReadDev. intros E.
  destruct (ReadFile env devPath) as [b|e] eqn:Hr; [|discriminate].
  destruct (loadDev env b) as [d|e] eqn:Hl; [|discriminate].
  destruct (validate env d) as [[e|]|] eqn:Hv; try discriminate.
  injection E as <-. exists b, d. repeat split; reflexivity || assumption.
Qed.

(** C9. The descriptor that [loadDev] makes of a manifest, its path
    fixed for the manifest file: the source is resolved as the
    specification words it; [~/x] with home [/home/u] resolves to
    [/home/u/x], and [./a] in the manifest [/repo/cnd.yml] resolves to
    [/repo/a]. *)
Theorem source_resolution (env : Env) (m : Manifest) (devPath wd : string) :
  cwd env = Some wd →
  ∃ d, loadDev env (Document m) = Ok d
       ∧ Source (devMount (fixPath env d devPath))
         = resolvePath_spec wd devPath (Source (devMount d))
       ∧ (HOME env = "/home/u" → m_source m = Some "~/x" →
            Source (devMount d) = "/home/u/x"
            ∧ Source (devMount (fixPath env d devPath)) = "/home/u/x")
       ∧ (m_source m = Some "./a" → devPath = "/repo/cnd.yml" →
            Source (devMount (fixPath env d devPath)) = "/repo/a").
Proof.
  intros Hwd. destruct (loadDev_document env m) as [d Hd].
  exists d. split; [done|]. split; [by apply fixPath_source|]. split.
  - intros Hh Hs. unfold loadDev in Hd. simpl in Hd. rewrite Hs in Hd.
    simpl in Hd. unfold Getenv_HOME in Hd. rewrite Hh in Hd.
    injection Hd as <-. by split.
  - intros Hs ->. unfold loadDev in Hd. simpl in Hd. rewrite Hs in Hd.
    simpl in Hd. injection Hd as <-. reflexivity.
Qed.

(** C9 at work: the manifest [/repo/cnd.yml] that mounts [./a], read
    from [/tmp]. *)
Lemma source_resolution_witness :
  cwd Sample.elsewhere = Some "/tmp"
  ∧ (∃ d, loadDev Sample.elsewhere (Document (Sample.cndYml "./a")) = Ok d
          ∧ Source (devMount (fixPath Sample.elsewhere d "/repo/cnd.yml")) = "/repo/a")
  ∧ (∃ d, loadDev Sample.elsewhere (Document (Sample.cndYml "~/x")) = Ok d
          ∧ Source (devMount (fixPath Sample.elsewhere d "cnd.yml")) = "/home/u/x").
Proof.
  split; [reflexivity|]. split.
  - destruct (source_resolution Sample.elsewhere (Sample.cndYml "./a")
                "/repo/cnd.yml" "/tmp" eq_refl) as (d & Hd & _ & _ & Ha).
    exists d. split; [exact Hd|]. by apply Ha.
  - destruct (source_resolution Sample.elsewhere (Sample.cndYml "~/x")
                "cnd.yml" "/tmp" eq_refl) as (d & Hd & _ & Hh & _).
    exists d. split; [exact Hd|]. by apply Hh.
Defined.

(** C8 fails on the code: [ReadDev] validates the source before it
    resolves it against the manifest. Run from [/tmp] on
    [/repo/cnd.yml], it accepts the source [./a] on the strength of
    [/tmp/a] and returns the source [/repo/a], which does not exist; and
    it rejects as missing the source whose resolved path [/repo/a] is a
    directory. *)
Theorem ReadDev_validates_unresolved_source :
  (∃ d, ReadDev Sample.elsewhere "/repo/cnd.yml" = Returns (Ok d)
        ∧ Source (devMount d) = "/repo/a"
        ∧ os_Stat Sample.elsewhere "/repo/a" = (None, Some ENOENT))
  ∧ ReadDev Sample.beside "/repo/cnd.yml" = Returns (Fail (ErrSourceMissing "./a"))
  ∧ os_Stat Sample.beside "/repo/a" = (Some (mkFileInfo true), None).
Proof.
  split; [|split; vm_compute; reflexivity].
  eexists. split; [vm_compute; reflexivity|]. split; vm_compute; reflexivity.
Qed.

(** C10 fails on the code: when [os.Stat] fails on the source with an
    error that is not "does not exist", [validate] goes on to call
    [Mode] on the nil file info, and [ReadDev] panics. *)
Theorem ReadDev_panics_on_stat_error (env : Env) (devPath : string)
    (b : bytes) (d : Dev) :
  ReadFile env devPath = Ok b →
  loadDev env b = Ok d →
  os_Stat env (Source (devMount d)) = (None, Some EACCES) →
  validate env d = Panics ∧ ReadDev env devPath = Panics.
Proof.
  intros Hr Hl Hs.
  assert (validate env d = Panics) as Hv by (unfold validate; by rewrite Hs).
  split; [done|]. unfold ReadDev. by rewrite Hr, Hl, Hv.
Qed.

(** C10 at work: a source below a directory that may not be searched. *)
Lemma ReadDev_panics_on_stat_error_witness :
  ReadDev Sample.locked "/repo/cnd.yml" = Panics.
Proof.
  destruct (loadDev_document Sample.locked (Sample.cndYml "/srv/private/app"))
    as [d Hd].
  assert (Source (devMount d) = "/srv/private/app") as Hs
    by (vm_compute in Hd; by injection Hd as <-).
  apply (ReadDev_panics_on_stat_error Sample.locked "/repo/cnd.yml"
           (Document (Sample.cndYml "/srv/private/app")) d).
  - vm_compute; reflexivity.
  - exact Hd.
  - rewrite Hs. vm_compute; reflexivity.
Defined.

End ManifestFacts.

(** ** The registry operations, one after the other *)

Section RegistryLifecycle.
Import GoPath Storage.

Variable stPath : string.

(** The registry that [load] reads once the document of a loaded registry
    with another session map is in the state file. *)
Lemma load_persisted (w : World) (s : Storage) (m : gmap string Service) :
  load stPath (persisted stPath (setServices s m) w)
  = Ok {| path := stPath;
          Version := if String.eqb (Version s) "" then version else Version s;
          Services := m |}.
Proof.
  unfold load, persisted. simpl. rewrite lookup_insert_eq.
  apply (unmarshal_marshal stPath (setServices s m)).
Qed.

(** [save] of a loaded registry: refused, or the state file written. *)
Lemma save_result (w : World) (s : Storage) (m : gmap string Service) :
  load stPath w = Ok s →
  save (setServices s m) w
  = if decide (stPath ∈ readonly w) then (Some ErrWriting, w)
    else (None, persisted stPath (setServices s m) w).
Proof.
  intros Hl. destruct (decide (stPath ∈ readonly w)) as [Hro|Hw].
  - apply save_readonly. simpl. by rewrite (load_path stPath w s Hl).
  - by destruct (save_loaded stPath w s m Hl Hw) as [-> _].
Qed.

Lemma Get_loaded (n : string) (dev : Model.Dev) (w : World) (s : Storage) :
  load stPath w = Ok s →
  Get stPath n dev w
  = match Services s !! getFullName n dev with
    | Some svc => Ok svc
    | None => Fail (ErrNotFound (getFullName n dev))
    end.
Proof. intros Hl. unfold Get. rewrite Hl. by destruct (Services s !! _). Qed.


Lemma Stop_loaded (n : string) (dev : Model.Dev) (w : World) (s : Storage) :
  load stPath w = Ok s →
  Stop stPath n dev w
  = match Services s !! getFullName n dev with
    | Some svc =>
        save (setServices s (<[getFullName n dev :=
                                 {| Folder := Folder svc; Syncthing := "" |}]>
                               (Services s))) w
    | None => (None, w)
    end.
Proof. intros Hl. unfold Stop. by rewrite Hl. Qed.

Lemma Delete_loaded (n : string) (dev : Model.Dev) (w : World) (s : Storage) :
  load stPath w = Ok s →
  Delete stPath n dev w
  = save (setServices s (delete (getFullName n dev) (Services s))) w.
Proof. intros Hl. unfold Delete. by rewrite Hl. Qed.

(** The three ways out of [Insert] once the registry is loaded and the
    service is made. *)
Lemma Insert_loaded (n : string) (dev : Model.Dev) (h : string) (w : World)
    (s : Storage) (svc : Service) :
  load stPath w = Ok s →
  newService w (Model.Source (Model.devMount dev)) h = Ok svc →
  Insert stPath n dev h w
  = match Services s !! getFullName n dev with
    | Some svc2 =>
        if bool_decide (svc2 = svc) then (None, w)
        else if negb (String.eqb (Syncthing svc2) "") then (Some ErrAlreadyRunning, w)
        else save (setServices s (<[getFullName n dev := svc]> (Services s))) w
    | None => save (setServices s (<[getFullName n dev := svc]> (Services s))) w
    end.
Proof. intros Hl Hn. unfold Insert. by rewrite Hl, Hn. Qed.

(** X1. When [load] fails, every operation hands its error on and writes
    nothing: [Insert], [Stop] and [Delete] return it with the world as it
    was, [Get] fails with it, and [All] is the empty map. *)
Theorem load_error_propagates (n : string) (dev : Model.Dev) (h : string)
    (w : World) (e : error) :
  load stPath w = Fail e →
  Insert stPath n dev h w = (Some e, w)
  ∧ Stop stPath n dev w = (Some e, w)
  ∧ Delete stPath n dev w = (Some e, w)
  ∧ Get stPath n dev w = Fail e
  ∧ All stPath w = ∅.
Proof.
  intros Hl. unfold Insert, Stop, Delete, Get, All. by rewrite Hl.
Qed.



(** X4. A stopped session can be started again: after [Stop] on a key
    that has a record, [Insert] with any handle and any folder succeeds,
    and [Get] then returns the new record. *)
Theorem stop_then_insert (n : string) (dev : Model.Dev) (h : string)
    (w : World) (s : Storage) (svc0 : Service) (folder : string) :
  load stPath w = Ok s →
  Services s !! getFullName n dev = Some svc0 →
  stPath ∉ readonly w →
  fixPath w (Model.Source (Model.devMount dev)) = Ok folder →
  ∃ w2, Insert stPath n dev h (snd (Stop stPath n dev w)) = (None, w2)
        ∧ Get stPath n dev w2 = Ok {| Folder := folder; Syncthing := h |}.
Proof.
  intros Hl Hk Hw Hf.
  set (key := getFullName n dev) in *.
  set (stopped := {| Folder := Folder svc0; Syncthing := "" |}).
  set (svc := {| Folder := folder; Syncthing := h |}).
  rewrite (Stop_loaded n dev w s Hl). fold key. rewrite Hk. fold stopped.
  rewrite (save_result w s _ Hl), decide_False by done. simpl.
  set (w1 := persisted stPath (setServices s (<[key := stopped]> (Services s))) w).
  pose proof (load_persisted w s (<[key := stopped]> (Services s))) as Hl1.
  fold w1 in Hl1.
  assert (newService w1 (Model.Source (Model.devMount dev)) h = Ok svc) as Hn
    by (unfold newService; change (fixPath w1) with (fixPath w); by rewrite Hf).
  rewrite (Insert_loaded n dev h w1 _ svc Hl1 Hn). fold key. simpl.
  rewrite lookup_insert_eq.
  destruct (bool_decide_reflect (stopped = svc)) as [Heq|Hne].
  - exists w1. split; [done|].
    rewrite (Get_loaded n dev w1 _ Hl1). fold key. simpl.
    by rewrite lookup_insert_eq, Heq.
  - simpl. rewrite (save_result w1 _ _ Hl1), decide_False by done.
    eexists. split; [done|].
    rewrite (Get_loaded n dev _ _ (load_persisted w1 _ _)). fold key. simpl.
    by rewrite lookup_insert_eq.
Qed.

(** X5. A deleted session can be started again: after [Delete], whatever
    the record at the key was, [Insert] with any handle succeeds and [Get]
    returns the new record. *)
Theorem delete_then_insert (n : string) (dev : Model.Dev) (h : string)
    (w : World) (s : Storage) (folder : string) :
  load stPath w = Ok s →
  stPath ∉ readonly w →
  fixPath w (Model.Source (Model.devMount dev)) = Ok folder →
  ∃ w2, Insert stPath n dev h (snd (Delete stPath n dev w)) = (None, w2)
        ∧ Get stPath n dev w2 = Ok {| Folder := folder; Syncthing := h |}.
Proof.
  intros Hl Hw Hf.
  set (key := getFullName n dev) in *.
  set (svc := {| Folder := folder; Syncthing := h |}).
  rewrite (Delete_loaded n dev w s Hl). fold key.
  rewrite (save_result w s _ Hl), decide_False by done. simpl.
  set (w1 := persisted stPath (setServices s (delete key (Services s))) w).
  pose proof (load_persisted w s (delete key (Services s))) as Hl1.
  fold w1 in Hl1.
  assert (newService w1 (Model.Source (Model.devMount dev)) h = Ok svc) as Hn
    by (unfold newService; change (fixPath w1) with (fixPath w); by rewrite Hf).
  rewrite (Insert_loaded n dev h w1 _ svc Hl1 Hn). fold key. simpl.
  rewrite lookup_delete_eq.
  rewrite (save_result w1 _ _ Hl1), decide_False by done.
  eexists. split; [done|].
  rewrite (Get_loaded n dev _ _ (load_persisted w1 _ _)). fold key. simpl.
  by rewrite lookup_insert_eq.
Qed.

(** X6. [Get] and [All] agree: [Get] returns a record for a descriptor
    exactly when [All] holds that record at its key. *)
Theorem get_all_agree (n : string) (dev : Model.Dev) (w : World) (svc : Service) :
  Get stPath n dev w = Ok svc ↔ All stPath w !! getFullName n dev = Some svc.
Proof.
  unfold Get, All. destruct (load stPath w) as [s|e].
  - destruct (Services s !! getFullName n dev); split; congruence.
  - rewrite lookup_empty. split; discriminate.
Qed.

(** [All] once [save] of a loaded registry has returned nil. *)
Lemma All_after_save (w w' : World) (s : Storage) (m : gmap string Service) :
  load stPath w = Ok s →
  save (setServices s m) w = (None, w') →
  All stPath w' = m
  ∧ ∃ s', load stPath w' = Ok s'
          ∧ Version s' = (if String.eqb (Version s) "" then version else Version s).
Proof.
  intros Hl. rewrite (save_result w s m Hl).
  destruct (decide (stPath ∈ readonly w)); [discriminate|]. intros [= <-].
  unfold All. rewrite load_persisted. split; [done|]. by eexists.
Qed.

(** X7. The operations write back the version that they read: when the
    state file gives the registry a version that is not empty, the
    registry read after a successful [Insert], [Stop] or [Delete] has that
    version, be it the constant of the package or not. *)
Theorem version_survives (n : string) (dev : Model.Dev) (h : string)
    (w w' : World) (s : Storage) :
  load stPath w = Ok s →
  Version s ≠ "" →
  Insert stPath n dev h w = (None, w')
  ∨ Stop stPath n dev w = (None, w')
  ∨ Delete stPath n dev w = (None, w') →
  ∃ s', load stPath w' = Ok s' ∧ Version s' = Version s.
Proof.
  intros Hl Hv Hop.
  assert (∀ m, save (setServices s m) w = (None, w') →
               ∃ s', load stPath w' = Ok s' ∧ Version s' = Version s) as Hsave.
  { intros m Es. destruct (All_after_save w w' s m Hl Es) as (_ & s' & Hl' & Hv').
    exists s'. split; [done|].
    by destruct (String.eqb_spec (Version s) ""). }
  assert (w' = w → ∃ s', load stPath w' = Ok s' ∧ Version s' = Version s) as Hsame
    by (intros ->; by exists s).
  destruct Hop as [E|[E|E]].
  - unfold Insert in E. rewrite Hl in E.
    destruct (newService w _ h) as [svc|]; [|discriminate].
    destruct (Services s !! getFullName n dev) as [svc2|]; [|by eapply Hsave].
    destruct (bool_decide (svc2 = svc)); [injection E as <-; by apply Hsame|].
    destruct (negb (String.eqb (Syncthing svc2) "")); [discriminate|by eapply Hsave].
  - rewrite (Stop_loaded n dev w s Hl) in E.
    destruct (Services s !! getFullName n dev); [by eapply Hsave|].
    injection E as <-. by apply Hsame.
  - rewrite (Delete_loaded n dev w s Hl) in E. by eapply Hsave.
Qed.


(** X9. Before there is a state file: [Get] fails with the not-found
    error, [All] is empty, [Stop] returns nil and leaves no state file,
    and [Delete] returns nil and creates the state file, holding the
    version and no session. *)
Theorem no_state_file (n : string) (dev : Model.Dev) (w : World) :
  files w !! stPath = None →
  Get stPath n dev w = Fail (ErrNotFound (getFullName n dev))
  ∧ All stPath w = ∅
  ∧ Stop stPath n dev w = (None, w)
  ∧ (stPath ∉ readonly w →
       fst (Delete stPath n dev w) = None
       ∧ files (snd (Delete stPath n dev w)) !! stPath
         = Some (Readable (Document {| y_version := Some version;
                                       y_services := None |}))).
Proof.
  intros Hf.
  assert (load stPath w = Ok {| path := stPath; Version := version; Services := ∅ |})
    as Hl by (unfold load; by rewrite Hf).
  repeat split.
  - by rewrite (Get_loaded n dev w _ Hl).
  - unfold All. by rewrite Hl.
  - by rewrite (Stop_loaded n dev w _ Hl).
  - rewrite (Delete_loaded n dev w _ Hl), (save_result w _ _ Hl).
    by rewrite decide_False.
  - rewrite (Delete_loaded n dev w _ Hl), (save_result w _ _ Hl).
    rewrite decide_False by done. simpl. rewrite lookup_insert_eq.
    unfold Marshal. simpl. rewrite delete_empty. by rewrite decide_True.
Qed.

Lemma load_error (w : World) (e : error) :
  load stPath w = Fail e → e = ErrReading ∨ e = ErrUnmarshalling.
Proof.
  unfold load. destruct (files w !! stPath) as [[|[|d]]|]; simpl;
    intros E; try discriminate E; injection E as <-; tauto.
Qed.

(** X10. [Insert] asks for the working directory only after the registry
    is loaded and only for a source that is not absolute: it fails with
    the error of [os.Getwd] exactly when the registry loads, the source is
    relative and the working directory cannot be had. *)
Theorem insert_getwd_error (n : string) (dev : Model.Dev) (h : string) (w : World) :
  fst (Insert stPath n dev h w) = Some ErrGetwd
  ↔ (∃ s, load stPath w = Ok s)
    ∧ IsAbs (Model.Source (Model.devMount dev)) = false
    ∧ cwd w = None.
Proof.
  unfold Insert. destruct (load stPath w) as [s|e0] eqn:Hl.
  - unfold newService, fixPath.
    destruct (IsAbs (Model.Source (Model.devMount dev))) eqn:Ha;
      [|destruct (cwd w) as [wd|] eqn:Hc].
    3: { simpl. split; [|done]. intros _. repeat split. by exists s. }
    all: split; [|by intros (_ & ? & ?)].
    all: destruct (Services s !! getFullName n dev) as [svc2|];
      [destruct (bool_decide (svc2 = _)); [done|];
       destruct (negb (String.eqb (Syncthing svc2) "")); [done|]|].
    all: rewrite (save_result w s _ Hl);
      by destruct (decide (stPath ∈ readonly w)).
  - split; [|by intros ([s Hs] & _)].
    simpl. intros [= ->]. by destruct (load_error w ErrGetwd Hl).
Qed.

(** X11. [All] after an operation that returned nil: [Insert] has put the
    new service at the key, [Stop] has emptied the handle of the record at
    the key if there is one, [Delete] has removed the key; nothing else in
    the listing has changed. *)
Theorem All_after_operation (n : string) (dev : Model.Dev) (h : string)
    (w w' : World) :
  (∀ svc, newService w (Model.Source (Model.devMount dev)) h = Ok svc →
     Insert stPath n dev h w = (None, w') →
     All stPath w' = <[getFullName n dev := svc]> (All stPath w))
  ∧ (Stop stPath n dev w = (None, w') →
     All stPath w'
     = alter (λ svc, {| Folder := Folder svc; Syncthing := "" |})
         (getFullName n dev) (All stPath w))
  ∧ (Delete stPath n dev w = (None, w') →
     All stPath w' = delete (getFullName n dev) (All stPath w)).
Proof.
  destruct (load stPath w) as [s|e0] eqn:Hl;
    [|unfold Insert, Stop, Delete; rewrite Hl; repeat split; intros; discriminate].
  assert (All stPath w = Services s) as HA by (unfold All; by rewrite Hl).
  set (key := getFullName n dev). rewrite HA.
  repeat split.
  - intros svc Hn. rewrite (Insert_loaded n dev h w s svc Hl Hn). fold key.
    destruct (Services s !! key) as [svc2|] eqn:Hk.
    + destruct (bool_decide_reflect (svc2 = svc)) as [->|Hne].
      * intros [= <-]. rewrite HA. symmetry. by apply insert_id.
      * destruct (negb (String.eqb (Syncthing svc2) "")); [discriminate|].
        intros Es. by destruct (All_after_save w w' s _ Hl Es).
    + intros Es. by destruct (All_after_save w w' s _ Hl Es).
  - rewrite (Stop_loaded n dev w s Hl). fold key.
    destruct (Services s !! key) as [svc|] eqn:Hk.
    + intros Es. destruct (All_after_save w w' s _ Hl Es) as [-> _].
      apply map_eq. intros k. destruct (decide (k = key)) as [->|Hne].
      * by rewrite lookup_insert_eq, lookup_alter_eq, Hk.
      * by rewrite lookup_insert_ne, lookup_alter_ne.
    + intros [= <-]. rewrite HA. apply map_eq. intros k.
      destruct (decide (k = key)) as [->|Hne].
      * by rewrite lookup_alter_eq, Hk.
      * by rewrite lookup_alter_ne.
  - rewrite (Delete_loaded n dev w s Hl). fold key.
    intros Es. by destruct (All_after_save w w' s _ Hl Es).
Qed.

End RegistryLifecycle.

(** ** The manifest model: validation, defaults and derived names *)

Section ManifestLifecycle.
Import GoPath Model.

Lemma string_append_inj_l (a x y : string) : a +:+ x = a +:+ y → x = y.
Proof.
  induction a as [|c a IH]; intros E.
  - exact E.
  - change (String c (a +:+ x) = String c (a +:+ y)) in E.
    injection E as E. by apply IH.
Qed.

(** X12. The four names derived from a descriptor tell the containers
    apart: two descriptors get the same manifest annotation, the same
    init container name, the same volume name or the same mount path only
    when their containers are the same; and the name of the init
    container is never the name of the sync container. *)
Theorem derived_names_injective (d1 d2 : Dev) :
  (GetCNDManifestAnnotation d1 = GetCNDManifestAnnotation d2
   ∨ GetCNDInitSyncContainer d1 = GetCNDInitSyncContainer d2
   ∨ GetCNDSyncVolume d1 = GetCNDSyncVolume d2
   ∨ GetCNDSyncMount d1 = GetCNDSyncMount d2 →
   Container (swapDeployment (devSwap d1)) = Container (swapDeployment (devSwap d2)))
  ∧ GetCNDInitSyncContainer d1 ≠ CNDSyncContainer.
Proof.
  split.
  - intros [E|[E|[E|E]]]; by apply string_append_inj_l in E.
  - discriminate.
Qed.

(** X13. The manifest annotation of a descriptor starts with the exported
    annotation prefix, and what follows the prefix is the container. *)
Theorem manifest_annotation_prefix (dev : Dev) :
  HasPrefix (GetCNDManifestAnnotation dev) CNDManifestAnnotationPrefix = true
  ∧ drop (String.length CNDManifestAnnotationPrefix) (GetCNDManifestAnnotation dev)
    = Container (swapDeployment (devSwap dev)).
Proof.
  unfold GetCNDManifestAnnotation.
  generalize (Container (swapDeployment (devSwap dev))). intros c.
  split; [|reflexivity]. vm_compute. by destruct c.
Qed.


(** What a descriptor returned by [ReadDev] tells. *)
Lemma ReadDev_inv (env : Env) (devPath : string) (d' : Dev) :
  ReadDev env devPath = Returns (Ok d') →
  ∃ b d, ReadFile env devPath = Ok b
         ∧ loadDev env b = Ok d
         ∧ lookupPath env (Source (devMount d)) = Some Directory
         ∧ Name (swapDeployment (devSwap d)) ≠ ""
         ∧ d' = fixPath env d devPath.
Proof.
  unfold ReadDev. intros E.
  destruct (ReadFile env devPath) as [b|e] eqn:Hr; [|discriminate].
  destruct (loadDev env b) as [d|e] eqn:Hl; [|discriminate].
  rewrite validate_on_source in E.
  destruct (lookupPath env (Source (devMount d))) as [[|b'|]|] eqn:Hd;
    try discriminate.
  destruct (String.eqb_spec (Name (swapDeployment (devSwap d))) "");
    [discriminate|].
  injection E as <-. exists b, d.
  split; [reflexivity|]. split; [exact Hl|]. by repeat split.
Qed.



(** [fixPath] touches the source and nothing else. *)
Lemma fixPath_rest (env : Env) (dev : Dev) (devPath : string) :
  devSwap (fixPath env dev devPath) = devSwap dev
  ∧ Target (devMount (fixPath env dev devPath)) = Target (devMount dev)
  ∧ Scripts (fixPath env dev devPath) = Scripts dev.
Proof.
  unfold fixPath. destruct (negb (IsAbs (Source (devMount dev)))); [|done].
  by destruct (IsAbs devPath).
Qed.

(** X17. What [ReadDev] returns keeps the promises of the manifest: the
    deployment has a name, and name, container, image, command, arguments
    and scripts are those of the document, or empty where the document
    has none; the mount target is that of the document, or [/src]. *)
Theorem ReadDev_fields (env : Env) (devPath : string) (m : Manifest) (d' : Dev) :
  ReadFile env devPath = Ok (Document m) →
  ReadDev env devPath = Returns (Ok d') →
  Name (swapDeployment (devSwap d')) ≠ ""
  ∧ swapDeployment (devSwap d')
    = {| Name := default "" (m_name m);
         Container := default "" (m_container m);
         Image := default "" (m_image m);
         Command := default [] (m_command m);
         Args := default [] (m_args m) |}
  ∧ Target (devMount d') = default "/src" (m_target m)
  ∧ Scripts d' = default ∅ (m_scripts m).
Proof.
  intros Hr E. apply ReadDev_inv in E as (b & d & Hr' & Hl & _ & Hn & ->).
  rewrite Hr in Hr'. injection Hr' as <-.
  destruct (fixPath_rest env d devPath) as (-> & -> & ->).
  split; [done|]. clear Hn Hr. unfold loadDev in Hl. simpl in Hl.
  destruct (HasPrefix (default "." (m_source m)) "~/"); by injection Hl as <-.
Qed.

End ManifestLifecycle.

(** ** Clean paths *)

Section PathCleaning.
Import GoPath.











End PathCleaning.

(** ** The source of a descriptor that [ReadDev] returns *)

Section ManifestSource.
Import GoPath Model.

#[local] Arguments Join : simpl never.

Lemma IsAbs_Join_list (wd : string) (rest : list string) :
  IsAbs wd = true → IsAbs (Join (wd :: rest)) = true.
Proof.
  destruct wd as [|c wd]; [discriminate|]. intros H.
  change (Join (String c wd :: rest)) with (Clean (joinSlash (String c wd :: rest))).
  apply IsAbs_Clean. destruct rest as [|e rest]; [done|].
  change (joinSlash (String c wd :: e :: rest))
    with (String c (wd +:+ "/" +:+ joinSlash (e :: rest))).
  by rewrite (IsAbs_String c _ wd).
Qed.

Lemma IsAbs_Dir (p : string) : IsAbs p = true → IsAbs (Dir p) = true.
Proof.
  destruct p as [|c p]; [discriminate|]. intros H.
  unfold Dir. apply IsAbs_Clean.
  rewrite IsAbs_cons in H. destruct (ascii_dec slash c) as [<-|]; [|discriminate].
  change (splitDir (String slash p)) with (String slash (splitDir p)).
  rewrite IsAbs_cons. by destruct (ascii_dec slash slash).
Qed.



(** A relative path that leads somewhere: there is a working directory,
    and the path is looked up from it. *)
Lemma lookupPath_relative (env : Env) (p : string) (node : Node) :
  IsAbs p = false →
  lookupPath env p = Some node →
  ∃ wd, cwd env = Some wd ∧ fs env !! Join [wd; p] = Some node.
Proof.
  unfold lookupPath. intros Ha. rewrite Ha.
  destruct (String.eqb p ""); [discriminate|].
  destruct (cwd env) as [wd|]; [|discriminate]. intros H. by exists wd.
Qed.

(** The source after [fixPath] is absolute when the source was, when the
    path of the manifest is, or when the working directory is. *)
Lemma fixPath_absolute (env : Env) (d : Dev) (devPath : string) :
  IsAbs (Source (devMount d)) = true
  ∨ IsAbs devPath = true
  ∨ (∃ wd, cwd env = Some wd ∧ IsAbs wd = true) →
  IsAbs (Source (devMount (fixPath env d devPath))) = true.
Proof.
  intros H. unfold fixPath.
  destruct (IsAbs (Source (devMount d))) eqn:Ha; [done|]. simpl.
  destruct (IsAbs devPath) eqn:Hp; simpl.
  - apply IsAbs_Join_list. by apply IsAbs_Dir.
  - destruct H as [H|[H|(wd & -> & H)]]; [discriminate..|].
    simpl. by apply IsAbs_Join_list.
Qed.

(** X18. With an absolute working directory, the source of every
    descriptor that [ReadDev] returns is an absolute path. *)
Theorem ReadDev_source_absolute (env : Env) (devPath : string) (d' : Dev) :
  (∀ wd, cwd env = Some wd → IsAbs wd = true) →
  ReadDev env devPath = Returns (Ok d') →
  IsAbs (Source (devMount d')) = true.
Proof.
  intros Hwd E. apply ReadDev_inv in E as (b & d & Hr & _ & _ & _ & ->).
  apply fixPath_absolute.
  destruct (IsAbs devPath) eqn:Hp; [tauto|]. right. right.
  unfold ReadFile in Hr.
  destruct (lookupPath env devPath) as [node|] eqn:Hn; [|discriminate].
  destruct (lookupPath_relative env devPath node Hp Hn) as (wd & Hc & _).
  exists wd. split; [done|]. by apply Hwd.
Qed.


Lemma fixPath_absolute_id (env : Env) (d : Dev) (devPath : string) :
  IsAbs (Source (devMount d)) = true → fixPath env d devPath = d.
Proof. intros H. unfold fixPath. by rewrite H. Qed.

(** X20. The home directory shorthand: a source that starts with [~/] is
    loaded as the rest of it joined onto [$HOME], and with an absolute
    [$HOME] that is an absolute path, which [fixPath] leaves alone
    whatever the path of the manifest is; any other source, [~] alone
    and [~name/...] too, is loaded as it is written. *)
Theorem home_expansion (env : Env) (m : Manifest) (src : string) :
  m_source m = Some src →
  ∃ d, loadDev env (Document m) = Ok d
       ∧ (HasPrefix src "~/" = false → Source (devMount d) = src)
       ∧ (HasPrefix src "~/" = true →
            Source (devMount d) = Join [HOME env; drop 2 src]
            ∧ (IsAbs (HOME env) = true →
                 IsAbs (Source (devMount d)) = true
                 ∧ ∀ devPath, fixPath env d devPath = d)).
Proof.
  intros Hs. unfold loadDev. simpl. rewrite Hs. simpl.
  destruct (HasPrefix src "~/") eqn:Hp.
  - eexists. split; [reflexivity|]. split; [discriminate|]. intros _.
    split; [reflexivity|]. intros Hh. simpl.
    pose proof (IsAbs_Join_list (HOME env) [drop 2 src] Hh) as Ha.
    split; [exact Ha|]. intros devPath. apply fixPath_absolute_id. exact Ha.
  - eexists. split; [reflexivity|]. split; [done|discriminate].
Qed.

(** X21. A descriptor fresh from [NewDev] is never valid, its deployment
    having no name; it is the descriptor that [loadDev] makes of a
    manifest without keys but for the mount target, [/app] in the one and
    [/src] in the other. *)
Theorem NewDev_defaults (env : Env) :
  validate env NewDev ≠ Returns None
  ∧ ∃ d, loadDev env (Document Sample.noKeys) = Ok d
         ∧ devSwap d = devSwap NewDev
         ∧ Source (devMount d) = Source (devMount NewDev)
         ∧ Scripts d = Scripts NewDev
         ∧ Target (devMount d) = "/src"
         ∧ Target (devMount NewDev) = "/app".
Proof.
  split.
  - rewrite validate_on_source.
    by destruct (lookupPath env (Source (devMount NewDev))) as [[| |]|].
  - eexists. split; [reflexivity|]. by repeat split.
Qed.

End ManifestSource.

(** ** A descriptor of [ReadDev] in the registry *)

Section DescriptorInRegistry.
Import GoPath Storage.

Variable stPath : string.

(** [Get] after an [Insert] that returned nil. *)
Lemma Get_after_Insert (n : string) (dev : Model.Dev) (h : string)
    (w w' : World) (svc : Service) :
  newService w (Model.Source (Model.devMount dev)) h = Ok svc →
  Insert stPath n dev h w = (None, w') →
  Get stPath n dev w' = Ok svc.
Proof.
  intros Hn E.
  destruct (load stPath w) as [s|e] eqn:Hl;
    [|unfold Insert in E; rewrite Hl in E; discriminate].
  rewrite (Insert_loaded stPath n dev h w s svc Hl Hn) in E.
  assert (save (setServices s (<[getFullName n dev := svc]> (Services s))) w
          = (None, w') → Get stPath n dev w' = Ok svc) as Hsave.
  { rewrite (save_result stPath w s _ Hl).
    destruct (decide (stPath ∈ readonly w)); [discriminate|]. intros [= <-].
    rewrite (Get_loaded stPath n dev _ _ (load_persisted stPath w s _)). simpl.
    by rewrite lookup_insert_eq. }
  destruct (Services s !! getFullName n dev) as [svc2|] eqn:Hk; [|by apply Hsave].
  destruct (bool_decide_reflect (svc2 = svc)) as [->|Hne].
  - injection E as <-. by rewrite (Get_loaded stPath n dev w s Hl), Hk.
  - destruct (negb (String.eqb (Syncthing svc2) "")); [discriminate|by apply Hsave].
Qed.

(** X22. A descriptor that [ReadDev] has returned, the working directory
    being absolute, enters the registry with its source as the folder:
    [Insert] never asks for the working directory, so never fails for the
    want of it, and after an [Insert] that succeeds [Get] returns the
    source of the descriptor and the handle. *)
Theorem registry_of_ReadDev (env : Model.Env) (devPath : string) (d : Model.Dev)
    (n h : string) (w w' : World) :
  (∀ wd, Model.cwd env = Some wd → IsAbs wd = true) →
  Model.ReadDev env devPath = Returns (Ok d) →
  fixPath w (Model.Source (Model.devMount d)) = Ok (Model.Source (Model.devMount d))
  ∧ fst (Insert stPath n d h w) ≠ Some ErrGetwd
  ∧ (Insert stPath n d h w = (None, w') →
     Get stPath n d w'
     = Ok {| Folder := Model.Source (Model.devMount d); Syncthing := h |}).
Proof.
  intros Hwd E.
  assert (IsAbs (Model.Source (Model.devMount d)) = true) as Ha.
  { apply ReadDev_inv in E as (b & d0 & Hr & _ & _ & _ & ->).
    apply fixPath_absolute.
    destruct (IsAbs devPath) eqn:Hp; [tauto|]. right. right.
    unfold Model.ReadFile in Hr.
    destruct (Model.lookupPath env devPath) as [node|] eqn:Hn; [|discriminate].
    destruct (lookupPath_relative env devPath node Hp Hn) as (wd & Hc & _).
    exists wd. split; [done|]. by apply Hwd. }
  assert (fixPath w (Model.Source (Model.devMount d))
          = Ok (Model.Source (Model.devMount d))) as Hf
    by (unfold fixPath; by rewrite Ha).
  pose proof (newService_ok w _ h _ Hf) as Hn.
  split; [exact Hf|]. split; [|by apply Get_after_Insert].
  destruct (load stPath w) as [s|e] eqn:Hl.
  - rewrite (Insert_loaded stPath n d h w s _ Hl Hn).
    destruct (Services s !! getFullName n d) as [svc2|];
      [destruct (bool_decide (svc2 = _)); [done|];
       destruct (negb (String.eqb (Syncthing svc2) "")); [done|]|];
      rewrite (save_result stPath w s _ Hl);
      by destruct (decide (stPath ∈ readonly w)).
  - unfold Insert. rewrite Hl. simpl. intros [= ->].
    by destruct (load_error stPath w ErrGetwd Hl).
Qed.

End DescriptorInRegistry.

(** ** The further properties on the sample data *)

Section LifecycleSamples.
Import GoPath Storage Sample.

(** X1 at work: a state file that is not YAML. *)
Lemma load_error_propagates_witness :
  load stateFile garbled = Fail ErrUnmarshalling
  ∧ Insert stateFile "default" web "host:1234" garbled = (Some ErrUnmarshalling, garbled)
  ∧ Get stateFile "default" web garbled = Fail ErrUnmarshalling
  ∧ All stateFile garbled = ∅.
Proof.
  assert (load stateFile garbled = Fail ErrUnmarshalling) as Hl by reflexivity.
  destruct (load_error_propagates stateFile "default" web "host:1234" garbled _ Hl)
    as (Hi & _ & _ & Hg & Ha).
  by repeat split.
Defined.



(** X4 at work: the session of the scenario, stopped and started again
    under another handle. *)
Lemma stop_then_insert_witness :
  ∃ w2, Insert stateFile "default" web "host:5555"
          (snd (Stop stateFile "default" web (recorded "/src/web" "host:1234")))
        = (None, w2)
        ∧ Get stateFile "default" web w2
          = Ok {| Folder := "/src/web"; Syncthing := "host:5555" |}.
Proof.
  apply (stop_then_insert stateFile "default" web "host:5555"
           (recorded "/src/web" "host:1234") (registry "/src/web" "host:1234")
           (mkService "/src/web" "host:1234") "/src/web").
  - apply recorded_loads.
  - vm_compute; reflexivity.
  - apply recorded_writable.
  - reflexivity.
Defined.

(** X5 at work: the running session deleted, and started under another
    handle. *)
Lemma delete_then_insert_witness :
  ∃ w2, Insert stateFile "default" web "host:5555"
          (snd (Delete stateFile "default" web (recorded "/src/web" "host:1234")))
        = (None, w2)
        ∧ Get stateFile "default" web w2
          = Ok {| Folder := "/src/web"; Syncthing := "host:5555" |}.
Proof.
  apply (delete_then_insert stateFile "default" web "host:5555"
           (recorded "/src/web" "host:1234") (registry "/src/web" "host:1234")
           "/src/web").
  - apply recorded_loads.
  - apply recorded_writable.
  - reflexivity.
Defined.

(** X6 at work. *)
Lemma get_all_agree_witness :
  All stateFile (recorded "/src/web" "host:1234") !! getFullName "default" web
  = Some {| Folder := "/src/web"; Syncthing := "host:1234" |}.
Proof.
  apply (get_all_agree stateFile "default" web). vm_compute; reflexivity.
Defined.

(** X7 at work: a state file of version 0.9 keeps its version when the
    stopped session in it is started. *)
Lemma version_survives_witness :
  ∃ w' s', Insert stateFile "default" web "host:1234" legacy = (None, w')
           ∧ load stateFile w' = Ok s' ∧ Version s' = "0.9".
Proof.
  assert (load stateFile legacy
          = Ok {| path := stateFile; Version := "0.9";
                  Services := {[ "default/web/app" := mkService "/src/web" "" ]} |})
    as Hl by (vm_compute; reflexivity).
  destruct (Insert stateFile "default" web "host:1234" legacy) as [r w'] eqn:E.
  assert (r = None) as -> by (apply (f_equal fst) in E; vm_compute in E; congruence).
  destruct (version_survives stateFile "default" web "host:1234" legacy w' _ Hl)
    as (s' & Hl' & Hv); [discriminate|by left|].
  by exists w', s'.
Defined.

(** X9 at work: the first [Delete] of all. *)
Lemma no_state_file_witness :
  files fresh !! stateFile = None
  ∧ Stop stateFile "default" web fresh = (None, fresh)
  ∧ fst (Delete stateFile "default" web fresh) = None
  ∧ files (snd (Delete stateFile "default" web fresh)) !! stateFile
    = Some (Readable (Document {| y_version := Some version; y_services := None |})).
Proof.
  assert (files fresh !! stateFile = None) as Hf by apply lookup_empty.
  destruct (no_state_file stateFile "default" web fresh Hf) as (_ & _ & Hs & Hd).
  destruct (Hd fresh_writable) as [Hd1 Hd2]. by repeat split.
Defined.

(** X10 at work: a relative source and no working directory. *)
Lemma insert_getwd_error_witness :
  fst (Insert stateFile "default" relative "host:1234" adrift) = Some ErrGetwd.
Proof.
  apply (insert_getwd_error stateFile "default" relative "host:1234" adrift).
  split; [by eexists|]. by split.
Defined.

(** X11 at work: the listing after the session is started. *)
Lemma All_after_operation_witness :
  All stateFile (snd (Insert stateFile "default" web "host:1234" fresh))
  = <[ "default/web/app" := mkService "/src/web" "host:1234" ]> (All stateFile fresh).
Proof.
  destruct (Insert stateFile "default" web "host:1234" fresh) as [r w'] eqn:E.
  assert (r = None) as -> by (apply (f_equal fst) in E; vm_compute in E; congruence).
  destruct (All_after_operation stateFile "default" web "host:1234" fresh w')
    as (Hi & _ & _).
  by apply (Hi (mkService "/src/web" "host:1234")).
Defined.

End LifecycleSamples.

Section ManifestSamples.
Import GoPath Model Sample.

(** X12 at work. *)
Lemma derived_names_injective_witness :
  GetCNDSyncVolume (target "web" "app" "/src/web") = "cnd-data-app"
  ∧ Container (swapDeployment (devSwap (target "web" "app" "/src/web")))
    = Container (swapDeployment (devSwap (target "api" "app" "/src/api"))).
Proof.
  split; [reflexivity|].
  apply (derived_names_injective (target "web" "app" "/src/web")
           (target "api" "app" "/src/api")).
  right. right. left. reflexivity.
Defined.




(** X17, X18 and X19 at work: the manifest in the working directory. *)
Lemma ReadDev_inplace :
  ReadDev inplace "cnd.yml"
  = Returns (Ok {| devSwap := {| swapDeployment := mkDeployment "web" "app" "" [] [] |};
                   devMount := {| Source := "/repo/a"; Target := "/src" |};
                   Scripts := ∅ |}).
Proof. vm_compute; reflexivity. Qed.

Lemma inplace_cwd (wd : string) : cwd inplace = Some wd → IsAbs wd = true.
Proof. by intros [= <-]. Qed.

Lemma ReadDev_fields_witness :
  ∃ d, ReadDev inplace "cnd.yml" = Returns (Ok d)
       ∧ Name (swapDeployment (devSwap d)) = "web"
       ∧ Target (devMount d) = "/src".
Proof.
  eexists. split; [exact ReadDev_inplace|].
  destruct (ReadDev_fields inplace "cnd.yml" (cndYml "./a") _
              ltac:(vm_compute; reflexivity) ReadDev_inplace) as (_ & Hs & Ht & _).
  split; [by rewrite Hs|exact Ht].
Defined.

Lemma ReadDev_source_absolute_witness :
  ∃ d, ReadDev inplace "cnd.yml" = Returns (Ok d)
       ∧ IsAbs (Source (devMount d)) = true.
Proof.
  eexists. split; [exact ReadDev_inplace|].
  exact (ReadDev_source_absolute inplace "cnd.yml" _ inplace_cwd ReadDev_inplace).
Defined.


(** X20 at work: [~/x] and [~x]. *)
Lemma home_expansion_witness :
  (∃ d, loadDev elsewhere (Document (cndYml "~/x")) = Ok d
        ∧ Source (devMount d) = "/home/u/x"
        ∧ fixPath elsewhere d "sub/cnd.yml" = d)
  ∧ (∃ d, loadDev elsewhere (Document (cndYml "~x")) = Ok d
          ∧ Source (devMount d) = "~x").
Proof.
  split.
  - destruct (home_expansion elsewhere (cndYml "~/x") "~/x" eq_refl)
      as (d & Hd & _ & He).
    destruct (He eq_refl) as [Hs Ha]. destruct (Ha eq_refl) as [_ Hf].
    exists d. split; [exact Hd|]. split; [exact Hs|apply Hf].
  - destruct (home_expansion elsewhere (cndYml "~x") "~x" eq_refl)
      as (d & Hd & Hn & _).
    exists d. split; [exact Hd|by apply Hn].
Defined.

(** X22 at work: the descriptor of the manifest in the working directory,
    inserted where no working directory can be had. *)
Lemma registry_of_ReadDev_witness :
  ∃ d w', ReadDev inplace "cnd.yml" = Returns (Ok d)
          ∧ Storage.Insert stateFile "default" d "host:1234" adrift = (None, w')
          ∧ Storage.Get stateFile "default" d w'
            = Ok {| Storage.Folder := "/repo/a"; Storage.Syncthing := "host:1234" |}.
Proof.
  eexists. eexists. split; [exact ReadDev_inplace|].
  assert (∀ w', Storage.Insert stateFile "default" _ "host:1234" adrift = (None, w') →
                Storage.Get stateFile "default" _ w' = Ok _) as H
    by (intros w'; apply (registry_of_ReadDev stateFile inplace "cnd.yml" _
                            "default" "host:1234" adrift w' inplace_cwd ReadDev_inplace)).
  split; [|apply H]; vm_compute; reflexivity.
Defined.

End ManifestSamples.
